(** * sample_space.py: the rocket parameter sample space and its decoder

    A shallow embedding of [get_sample_space], [parse_args], [_scale] and the
    four preset spaces of [sample_space.py].

    Numbers.  Python's [int] and [float] are embedded as exact rationals
    ([Q]); Python's numeric [==], [<=] are [Qeq], [Qle].  Rounding of
    binary floating point is not modelled, nor are its overflow and
    underflow (a power too large for a float raises [OverflowError], a
    product can underflow to zero), nor infinities and NaN.  Division is
    Python 3 true division.

    Exceptions.  The code can raise in three ways: [args[i]] out of range
    ([IndexError]), a zero base raised to a negative power
    ([ZeroDivisionError], as the built-in [float.__pow__] does) and a failed
    [assert] ([AssertionError]).  They are embedded in an error monad whose
    binds follow Python's evaluation order. *)

From Stdlib Require Import QArith Qpower Lqa Lia ZArith List String Bool.
Import ListNotations.

Open Scope Q_scope.

(* ------------------------------------------------------------------ *)
(** ** Exceptions as an error monad *)

Module Py.

Inductive exn : Set :=
| IndexError
| ZeroDivisionError
| AssertionError.

Inductive result (A : Type) : Type :=
| Ok (a : A)
| Raise (e : exn).

Arguments Ok {A} a.
Arguments Raise {A} e.

Definition bind {A B : Type} (m : result A) (k : A -> result B) : result B :=
  match m with
  | Ok a => k a
  | Raise e => Raise e
  end.

Definition raises {A : Type} (m : result A) : Prop :=
  exists e, m = Raise e.

(** [args[i]] on a Python list, for a literal index [i >= 0]. *)
Definition getitem (args : list Q) (i : nat) : result Q :=
  match nth_error args i with
  | Some v => Ok v
  | None => Raise IndexError
  end.

(** [assert(b)]. *)
Definition assert (b : bool) : result unit :=
  if b then Ok tt else Raise AssertionError.

(** [x ** n] on a float [x] and an integer literal [n]: a zero base with a
    negative exponent raises. *)
Definition pow (x : Q) (n : Z) : result Q :=
  if Qeq_bool x 0 && (n <? 0)%Z then Raise ZeroDivisionError
  else Ok (x ^ n).

(** [x in l] on a list of numbers: some element is [==] to [x]. *)
Definition contains (x : Q) (l : list Q) : bool :=
  existsb (Qeq_bool x) l.

End Py.

Import Py.

Notation "x <- m ;; k" := (bind m (fun x => k))
  (at level 61, m at next level, right associativity).
Notation "m ;;; k" := (bind m (fun _ => k))
  (at level 61, right associativity).
Notation "a .[ i ]" := (getitem a i) (at level 1, format "a .[ i ]").

(* ------------------------------------------------------------------ *)
(** ** [_scale] *)

(** [assert(0 <= in_ <= 1); assert(min_ <= max_);
    return in_ * (max_ - min_) + min_] *)
Definition _scale (in_ min_ max_ : Q) : result Q :=
  assert (Qle_bool 0 in_ && Qle_bool in_ 1) ;;;
  assert (Qle_bool min_ max_) ;;;
  Ok (in_ * (max_ - min_) + min_).

(* ------------------------------------------------------------------ *)
(** ** [parse_args] *)

(** The dictionary [parse_args] returns, one field per key.  The three
    airfoil keys hold [None] when the fin shape does not use them. *)
Module Design.
Record t : Type := mk {
  dry_mass : Q;
  thrust_margin : Q;
  radius : Q;
  dry_CoM : Q;
  nose_len : Q;
  body_len : Q;
  boat_len : Q;
  nose_shape : Q;
  nose_tip_di : Q;
  nose_power : Q;
  fin_count : Q;
  fin_root_chord : Q;
  fin_span : Q;
  fin_tip_chord : Q;
  fin_sweep : Q;
  fin_thickness : Q;
  fin_base_sep : Q;
  fin_shape : Q;
  fin_le_rad : option Q;
  fin_le_len : option Q;
  fin_te_len : option Q;
  CH4_tube_radius : Q
}.
End Design.

(** [0.00690077 * ((radius * 0.0254) ** -2) * 39.3701 + 10] *)
Definition tank_and_engine_len (radius : Q) : result Q :=
  p <- pow (radius * 0.0254) (-2) ;;
  Ok (0.00690077 * p * 39.3701 + 10).

(** [args[i] if c else None]: the index is read only when [c] holds. *)
Definition getitem_if (c : bool) (args : list Q) (i : nat) : result (option Q) :=
  if c then (v <- args.[i] ;; Ok (Some v)) else Ok None.

Definition parse_args (args : list Q) : result Design.t :=
  radius <- args.[2] ;;
  nose_len <- args.[4] ;;
  body_len_frac <- args.[5] ;;
  tank_and_engine_len <- tank_and_engine_len radius ;;
  let body_len := body_len_frac * tank_and_engine_len in
  a11 <- args.[11] ;;
  fin_root_chord <- _scale a11 2 ((body_len + nose_len) / 2) ;;
  fin_shape <- args.[17] ;;
  a0 <- args.[0] ;;
  a1 <- args.[1] ;;
  a3 <- args.[3] ;;
  dry_CoM <- _scale a3
               (nose_len + body_len - (tank_and_engine_len / 2))
               (nose_len + body_len - (tank_and_engine_len / 3)) ;;
  a6 <- args.[6] ;;
  a7 <- args.[7] ;;
  a8 <- args.[8] ;;
  a9 <- args.[9] ;;
  a10 <- args.[10] ;;
  a12 <- args.[12] ;;
  fin_span <- _scale a12 2 ((body_len + nose_len) / 2) ;;
  a13 <- args.[13] ;;
  fin_tip_chord <- _scale a13 0 fin_root_chord ;;
  a14 <- args.[14] ;;
  fin_sweep <- _scale a14 0 fin_root_chord ;;
  a15 <- args.[15] ;;
  a16 <- args.[16] ;;
  fin_base_sep <- _scale a16 fin_root_chord ((body_len + nose_len) / 2) ;;
  fin_le_rad <- getitem_if (contains fin_shape [1; 3; 4; 5; 6; 7]) args 18 ;;
  fin_le_len <- getitem_if (contains fin_shape [1; 3; 6]) args 19 ;;
  fin_te_len <- getitem_if (Qeq_bool fin_shape 1) args 20 ;;
  a21 <- args.[21] ;;
  Ok {| Design.dry_mass := a0;
        Design.thrust_margin := a1;
        Design.radius := radius;
        Design.dry_CoM := dry_CoM;
        Design.nose_len := nose_len;
        Design.body_len := body_len;
        Design.boat_len := a6;
        Design.nose_shape := a7;
        Design.nose_tip_di := a8;
        Design.nose_power := a9;
        Design.fin_count := a10;
        Design.fin_root_chord := fin_root_chord;
        Design.fin_span := fin_span;
        Design.fin_tip_chord := fin_tip_chord;
        Design.fin_sweep := fin_sweep;
        Design.fin_thickness := a15 / 8;
        Design.fin_base_sep := fin_base_sep;
        Design.fin_shape := fin_shape;
        Design.fin_le_rad := fin_le_rad;
        Design.fin_le_len := fin_le_len;
        Design.fin_te_len := fin_te_len;
        Design.CH4_tube_radius := a21 / 8 |}.

(** The vector of the end-to-end example. *)
Definition example_vector : list Q :=
  [65; 15; 10; 0.5; 20; 2; 0; 1; 1; 0.5; 3; 0.5; 0.5; 0.5; 0.5; 4; 0.5; 1;
   0.5; 1.5; 1.5; 8].

(** What [parse_args] returns for it. *)
Definition example_design : Design.t :=
  Eval vm_compute in
    match parse_args example_vector with
    | Ok d => d
    | Raise _ =>
        Design.mk 0 0 0 0 0 0 0 0 0 0 0 0 0 0 0 0 0 0 None None None 0
    end.

(** A vector whose radius is zero. *)
Definition zero_radius_vector : list Q :=
  [65; 15; 0; 0.5; 20; 2; 0; 1; 1; 0.5; 3; 0.5; 0.5; 0.5; 0.5; 4; 0.5; 1;
   0.5; 1.5; 1.5; 8].

(** [x] is numerically equal to an element of [l]. *)
Definition one_of (x : Q) (l : list Q) : Prop := Exists (Qeq x) l.

(* ------------------------------------------------------------------ *)
(** ** [get_sample_space] *)

(** The values a caller passes: [None] or a number. *)
Inductive pyval : Type :=
| PyNone
| PyNum (x : Q).

(** Truth value, as [or] tests it: [None] and zero are false. *)
Definition truthy (v : pyval) : bool :=
  match v with
  | PyNone => false
  | PyNum x => negb (Qeq_bool x 0)
  end.

(** The parameter expressions the code builds with [hp]. *)
Module hp.
Inductive expr : Type :=
| uniform (label : string) (low high : Q)
| quniform (label : string) (low high q : Q)
| randint (label : string) (upper : Z)
| choice (label : string) (options : list Q)
| add (n : Z) (e : expr).

Fixpoint label (e : expr) : string :=
  match e with
  | uniform l _ _ | quniform l _ _ _ | randint l _ | choice l _ => l
  | add _ e' => label e'
  end.
End hp.

(** An entry of the returned list: a value passed through, or an
    expression. *)
Inductive entry : Type :=
| Val (v : pyval)
| Expr (e : hp.expr).

(** [x or e] *)
Definition py_or (x : pyval) (e : hp.expr) : entry :=
  if truthy x then Val x else Expr e.

Infix "or" := py_or (at level 50, only parsing).

(** The parameters of [get_sample_space], in the order of its signature. *)
Module Param.
Inductive t : Set :=
| dry_mass | thrust_margin
| radius | dry_com | nose_len | body_len | boat_len
| nose_shape | nose_tip_di | nose_power
| fin_count | fin_root_chord | fin_span | fin_tip_chord
| fin_sweep | fin_thickness | fin_base_sep | fin_shape
| fin_le_rad | fin_le_len | fin_te_len
| ch4_tube_radius.

Definition all : list t :=
  [dry_mass; thrust_margin; radius; dry_com; nose_len; body_len; boat_len;
   nose_shape; nose_tip_di; nose_power; fin_count; fin_root_chord; fin_span;
   fin_tip_chord; fin_sweep; fin_thickness; fin_base_sep; fin_shape;
   fin_le_rad; fin_le_len; fin_te_len; ch4_tube_radius].

Definition index (p : t) : nat :=
  match p with
  | dry_mass => 0 | thrust_margin => 1
  | radius => 2 | dry_com => 3 | nose_len => 4 | body_len => 5
  | boat_len => 6 | nose_shape => 7 | nose_tip_di => 8 | nose_power => 9
  | fin_count => 10 | fin_root_chord => 11 | fin_span => 12
  | fin_tip_chord => 13 | fin_sweep => 14 | fin_thickness => 15
  | fin_base_sep => 16 | fin_shape => 17 | fin_le_rad => 18
  | fin_le_len => 19 | fin_te_len => 20 | ch4_tube_radius => 21
  end%nat.

Definition name (p : t) : string :=
  match p with
  | dry_mass => "dry_mass" | thrust_margin => "thrust_margin"
  | radius => "radius" | dry_com => "dry_com" | nose_len => "nose_len"
  | body_len => "body_len" | boat_len => "boat_len"
  | nose_shape => "nose_shape" | nose_tip_di => "nose_tip_di"
  | nose_power => "nose_power" | fin_count => "fin_count"
  | fin_root_chord => "fin_root_chord" | fin_span => "fin_span"
  | fin_tip_chord => "fin_tip_chord" | fin_sweep => "fin_sweep"
  | fin_thickness => "fin_thickness" | fin_base_sep => "fin_base_sep"
  | fin_shape => "fin_shape" | fin_le_rad => "fin_le_rad"
  | fin_le_len => "fin_le_len" | fin_te_len => "fin_te_len"
  | ch4_tube_radius => "ch4_tube_radius"
  end%string.

Definition eqb (p q : t) : bool := Nat.eqb (index p) (index q).

(** The signature's comments: the first two are "Fixed", the rest
    "Learnable". *)
Definition learnable (p : t) : bool :=
  match p with
  | dry_mass | thrust_margin => false
  | _ => true
  end.
End Param.

(** The arguments a call binds: one value per parameter. *)
Definition arguments : Type := Param.t -> pyval.

(** The defaults of the signature. *)
Definition defaults : arguments :=
  fun p =>
    match p with
    | Param.dry_mass => PyNum 65
    | Param.thrust_margin => PyNum 15
    | _ => PyNone
    end.

(** A call with keyword arguments [kw]: a keyword replaces the default. *)
Definition keyword (p : Param.t) (v : pyval) (a : arguments) : arguments :=
  fun q => if Param.eqb q p then v else a q.

Definition call (kw : list (Param.t * pyval)) : arguments :=
  fold_left (fun a kv => keyword (fst kv) (snd kv) a) kw defaults.

Definition get_sample_space (a : arguments) : list entry :=
  [ Val (a Param.dry_mass);
    Val (a Param.thrust_margin);
    a Param.radius or hp.uniform "radius" 2 12;
    a Param.dry_com or hp.uniform "dry_com" 0 1;
    a Param.nose_len or hp.uniform "nose_len" 2 30;
    a Param.body_len or hp.uniform "body_len" 1.5 4;
    a Param.boat_len or hp.uniform "boat_len" 0 10;
    a Param.nose_shape or hp.add 1 (hp.randint "nose_shape" 7);
    a Param.nose_tip_di or hp.uniform "nose_tip_di" 0 2;
    a Param.nose_power or hp.uniform "nose_power" 0 0.99;
    a Param.fin_count or hp.choice "fin_count" [3; 4];
    a Param.fin_root_chord or hp.uniform "fin_root_chord" 0 1;
    a Param.fin_span or hp.uniform "fin_span" 0 1;
    a Param.fin_tip_chord or hp.uniform "fin_tip_chord" 0 1;
    a Param.fin_sweep or hp.uniform "fin_sweep" 0 1;
    a Param.fin_thickness or hp.quniform "fin_thickness" 1 10 1;
    a Param.fin_base_sep or hp.uniform "fin_base_sep" 0 1;
    a Param.fin_shape or hp.add 1 (hp.randint "fin_shape" 9);
    a Param.fin_le_rad or hp.uniform "fin_le_rad" 0.1 1;
    a Param.fin_le_len or hp.uniform "fin_le_len" 0.1 3;
    a Param.fin_te_len or hp.uniform "fin_te_len" 0.1 3;
    a Param.ch4_tube_radius or hp.quniform "ch4_tube_radius" 1 16 1 ].

(* ------------------------------------------------------------------ *)
(** ** The preset spaces *)

Definition space_all_kwargs : list (Param.t * pyval) := [].

Definition space_most_kwargs : list (Param.t * pyval) :=
  [ (Param.fin_le_rad, PyNum 0.5);
    (Param.fin_le_len, PyNum 1.5);
    (Param.fin_te_len, PyNum 1.5);
    (Param.ch4_tube_radius, PyNum 8) ].

Definition space_few_kwargs : list (Param.t * pyval) :=
  [ (Param.fin_le_rad, PyNum 0.5);
    (Param.fin_le_len, PyNum 1.5);
    (Param.fin_te_len, PyNum 1.5);
    (Param.ch4_tube_radius, PyNum 8);
    (Param.nose_tip_di, PyNum 0);
    (Param.fin_thickness, PyNum 1);
    (Param.fin_base_sep, PyNum 0);
    (Param.nose_power, PyNum 0.1) ].

Definition space_body_kwargs : list (Param.t * pyval) :=
  [ (Param.fin_le_rad, PyNum 0.5);
    (Param.fin_le_len, PyNum 1.5);
    (Param.fin_te_len, PyNum 1.5);
    (Param.ch4_tube_radius, PyNum 8);
    (Param.nose_len, PyNum 15);
    (Param.nose_shape, PyNum 1);
    (Param.nose_tip_di, PyNum 0);
    (Param.nose_power, PyNum 0);
    (Param.fin_count, PyNum 4);
    (Param.fin_root_chord, PyNum 1);
    (Param.fin_span, PyNum 1);
    (Param.fin_tip_chord, PyNum 0.75);
    (Param.fin_sweep, PyNum 0.33);
    (Param.fin_thickness, PyNum 1);
    (Param.fin_base_sep, PyNum 0);
    (Param.fin_shape, PyNum 7) ].

Definition space_all : list entry := get_sample_space (call space_all_kwargs).
Definition space_most : list entry := get_sample_space (call space_most_kwargs).
Definition space_few : list entry := get_sample_space (call space_few_kwargs).
Definition space_body : list entry := get_sample_space (call space_body_kwargs).

(** An entry is pinned when it is a scalar, not an expression. *)
Definition is_scalar (e : entry) : bool :=
  match e with
  | Val (PyNum _) => true
  | _ => false
  end.

(** The learnable slots of a space are those after the two fixed ones. *)
Definition learnable_slots (space : list entry) : list entry := skipn 2 space.

Definition pinned (space : list entry) : nat :=
  List.length (filter is_scalar (learnable_slots space)).

(* ------------------------------------------------------------------ *)
(** ** The canonical table of the specification *)

Module Table.
Inductive kind : Type :=
| FixedScalar (default : Q)
| Uniform (low high : Q)
| IntegerOffsetChoice (n offset : Z)
| Categorical (options : list Q)
| QuantizedUniform (low high step : Q).

(** The rows "idx, name, kind, params" of the specification, by index. *)
Definition canonical : list (string * kind) :=
  [ ("dry_mass", FixedScalar 65);
    ("thrust_margin", FixedScalar 15);
    ("radius", Uniform 2 12);
    ("dry_com", Uniform 0 1);
    ("nose_len", Uniform 2 30);
    ("body_len", Uniform 1.5 4);
    ("boat_len", Uniform 0 10);
    ("nose_shape", IntegerOffsetChoice 7 1);
    ("nose_tip_di", Uniform 0 2);
    ("nose_power", Uniform 0 0.99);
    ("fin_count", Categorical [3; 4]);
    ("fin_root_chord", Uniform 0 1);
    ("fin_span", Uniform 0 1);
    ("fin_tip_chord", Uniform 0 1);
    ("fin_sweep", Uniform 0 1);
    ("fin_thickness", QuantizedUniform 1 10 1);
    ("fin_base_sep", Uniform 0 1);
    ("fin_shape", IntegerOffsetChoice 9 1);
    ("fin_le_rad", Uniform 0.1 1);
    ("fin_le_len", Uniform 0.1 3);
    ("fin_te_len", Uniform 0.1 3);
    ("ch4_tube_radius", QuantizedUniform 1 16 1) ]%string.
End Table.

(** The distribution an [hp] expression asks the sampler for:
    [hp.randint(l, n)] draws from [0 .. n-1], so [k + hp.randint(l, n)]
    draws from [k .. k+n-1]. *)
Definition describe (e : hp.expr) : option Table.kind :=
  match e with
  | hp.uniform _ lo hi => Some (Table.Uniform lo hi)
  | hp.quniform _ lo hi q => Some (Table.QuantizedUniform lo hi q)
  | hp.choice _ opts => Some (Table.Categorical opts)
  | hp.randint _ n => Some (Table.IntegerOffsetChoice n 0)
  | hp.add k (hp.randint _ n) => Some (Table.IntegerOffsetChoice n k)
  | hp.add _ _ => None
  end.

(** An entry is the descriptor of row [i] when it is an expression labelled
    with the row's name and asking for the row's distribution. *)
Definition descriptor_of_row (i : nat) (e : entry) : Prop :=
  exists x name k,
    e = Expr x /\
    nth_error Table.canonical i = Some (name, k) /\
    hp.label x = name /\
    describe x = Some k.

(** Two calls: [get_sample_space(fin_le_rad=0.5)] and
    [get_sample_space(nose_tip_di=0)]. *)
Definition fin_le_rad_given : arguments := call [(Param.fin_le_rad, PyNum 0.5)].
Definition nose_tip_di_zero : arguments := call [(Param.nose_tip_di, PyNum 0)].

(** The entry a space holds for a parameter is a descriptor of its row. *)
Definition is_descriptor (space : list entry) (p : Param.t) : Prop :=
  exists e,
    nth_error space (Param.index p) = Some e /\
    descriptor_of_row (Param.index p) e.

(** The entry a space holds for a keyword is the keyword's value. *)
Definition pinned_to (space : list entry) (kv : Param.t * pyval) : Prop :=
  nth_error space (Param.index (fst kv)) = Some (Val (snd kv)).

(** The keywords of a call whose value is not zero. *)
Definition nonzero_kwargs (kw : list (Param.t * pyval)) :
  list (Param.t * pyval) :=
  filter (fun kv => truthy (snd kv)) kw.

(** The learnable parameters a call does not name. *)
Definition unnamed_learnable (kw : list (Param.t * pyval)) : list Param.t :=
  filter (fun p => Param.learnable p &&
                   negb (existsb (Param.eqb p) (map fst kw)))
         Param.all.

(* ------------------------------------------------------------------ *)
(** ** Sampling bounds of a decoded vector *)

Definition slot_within (args : list Q) (i : nat) (lo hi : Q) : Prop :=
  exists v, nth_error args i = Some v /\ lo <= v /\ v <= hi.

Definition within_sampling_bounds (args : list Q) : Prop :=
  slot_within args 2 2 12 /\
  slot_within args 4 2 30 /\
  slot_within args 5 1.5 4 /\
  Forall (fun i => slot_within args i 0 1) [3; 11; 12; 13; 14; 16]%nat.

(** The outcomes of [parse_args] that are not a failed assertion or a
    division by zero: a dictionary, or an [IndexError] on a vector shorter
    than 22. *)
Definition returns_unless_short (args : list Q) (m : result Design.t) : Prop :=
  (exists d, m = Ok d) \/
  (m = Raise IndexError /\ (List.length args < 22)%nat).

(* ------------------------------------------------------------------ *)
(** ** Notions for the further properties *)

(** The label of an entry that is an expression, and the labels of a
    space in order. *)
Definition entry_label (e : entry) : option string :=
  match e with
  | Expr x => Some (hp.label x)
  | Val _ => None
  end.

Fixpoint labels (space : list entry) : list string :=
  match space with
  | [] => []
  | e :: space' =>
      match entry_label e with
      | Some l => l :: labels space'
      | None => labels space'
      end
  end.

(** The learnable parameters, in order, and those a call gives a truthy
    value. *)
Definition learnable_params : list Param.t := filter Param.learnable Param.all.

Definition fixed_params (a : arguments) : list Param.t :=
  filter (fun p => truthy (a p)) learnable_params.

(* ================================================================== *)
(** * Properties *)

(** ** The error monad *)

Lemma bind_Ok {A B : Type} (m : result A) (k : A -> result B) (b : B) :
  bind m k = Ok b -> exists a, m = Ok a /\ k a = Ok b.
Proof.
  destruct m as [a|e]; cbn; [eauto | discriminate].
Qed.

Lemma getitem_Ok (args : list Q) (i : nat) (v : Q) :
  args.[i] = Ok v <-> nth_error args i = Some v.
Proof.
  unfold getitem. destruct (nth_error args i); split; congruence.
Qed.

Lemma getitem_cases (args : list Q) (i : nat) :
  (exists v, args.[i] = Ok v) \/ args.[i] = Raise IndexError.
Proof.
  unfold getitem. destruct (nth_error args i); eauto.
Qed.

Lemma getitem_if_Ok (c : bool) (args : list Q) (i : nat) (o : option Q) :
  getitem_if c args i = Ok o ->
  if c then o = nth_error args i /\ o <> None else o = None.
Proof.
  unfold getitem_if, getitem. destruct c.
  - destruct (nth_error args i); cbn; [|discriminate].
    intros [= <-]. split; congruence.
  - now intros [= <-].
Qed.

(** Peel the binds of a successful computation, one equation each. *)
Ltac bind_inv H :=
  repeat (cbv zeta in H;
          match type of H with
          | bind _ _ = Ok _ =>
              let a := fresh "x" in
              let E := fresh "E" in
              apply bind_Ok in H; destruct H as (a & E & H)
          end).

(** ** Arithmetic of [_scale] *)

Lemma assert_true (b : bool) : b = true -> assert b = Ok tt.
Proof. now intros ->. Qed.

Lemma _scale_Ok (v lo hi : Q) :
  0 <= v -> v <= 1 -> lo <= hi ->
  _scale v lo hi = Ok (v * (hi - lo) + lo).
Proof.
  intros H0 H1 Hlh. unfold _scale.
  rewrite assert_true.
  - cbn [bind]. rewrite assert_true; [reflexivity|].
    now apply Qle_bool_iff.
  - apply andb_true_intro; split; now apply Qle_bool_iff.
Qed.

Lemma _scale_inv (v lo hi y : Q) :
  _scale v lo hi = Ok y ->
  0 <= v /\ v <= 1 /\ lo <= hi /\ y = v * (hi - lo) + lo.
Proof.
  unfold _scale, assert.
  destruct (Qle_bool 0 v) eqn:E0; [|discriminate].
  destruct (Qle_bool v 1) eqn:E1; [|discriminate].
  destruct (Qle_bool lo hi) eqn:E2; [|discriminate].
  cbn. intros [= <-].
  apply Qle_bool_iff in E0, E1, E2. auto.
Qed.

Lemma scale_range (v lo hi : Q) :
  0 <= v -> v <= 1 -> lo <= hi ->
  lo <= v * (hi - lo) + lo /\ v * (hi - lo) + lo <= hi.
Proof.
  intros H0 H1 Hlh. split; nra.
Qed.

(** C2.  For [0 <= v <= 1] and [lo <= hi], [_scale v lo hi] returns
    [v*(hi-lo)+lo], the value lies in [[lo, hi]], and [_scale 0 lo hi]
    and [_scale 1 lo hi] return values equal to [lo] and [hi]. *)
Theorem scale_interpolates (v lo hi : Q) :
  0 <= v -> v <= 1 -> lo <= hi ->
  (exists y, _scale v lo hi = Ok y /\
             y = v * (hi - lo) + lo /\ lo <= y /\ y <= hi) /\
  (exists y0, _scale 0 lo hi = Ok y0 /\ y0 == lo) /\
  (exists y1, _scale 1 lo hi = Ok y1 /\ y1 == hi).
Proof.
  intros H0 H1 Hlh. repeat split.
  - exists (v * (hi - lo) + lo).
    rewrite _scale_Ok by assumption.
    destruct (scale_range v lo hi H0 H1 Hlh). auto.
  - exists (0 * (hi - lo) + lo). rewrite _scale_Ok by (assumption || lra).
    split; [reflexivity | ring].
  - exists (1 * (hi - lo) + lo). rewrite _scale_Ok by (assumption || lra).
    split; [reflexivity | ring].
Qed.

Lemma scale_interpolates_witness :
  (exists y, _scale 0.5 2 10 = Ok y /\
             y = 0.5 * (10 - 2) + 2 /\ 2 <= y /\ y <= 10) /\
  (exists y0, _scale 0 2 10 = Ok y0 /\ y0 == 2) /\
  (exists y1, _scale 1 2 10 = Ok y1 /\ y1 == 10).
Proof.
  apply (scale_interpolates 0.5 2 10); lra.
Defined.

(** ** [parse_args] *)

Lemma Qpower_minus2 (x : Q) : x ^ (-2) == / (x * x).
Proof. reflexivity. Qed.

Lemma tank_and_engine_len_inv (r T : Q) :
  tank_and_engine_len r = Ok T ->
  ~ r == 0 /\ T = 0.00690077 * (r * 0.0254) ^ (-2) * 39.3701 + 10.
Proof.
  unfold tank_and_engine_len, pow. cbn [Z.ltb Z.compare andb].
  destruct (Qeq_bool (r * 0.0254) 0) eqn:E; cbn; [discriminate|].
  intros [= <-]. split; [|reflexivity].
  intros Hr. apply Qeq_bool_neq in E. apply E. rewrite Hr. reflexivity.
Qed.

(** Invert a successful [parse_args]: one equation per statement of the
    function, the indexings as [nth_error] facts. *)
Ltac decode_inv H :=
  unfold parse_args in H; bind_inv H; injection H as <-;
  repeat match goal with
         | E : getitem _ _ = Ok _ |- _ => apply getitem_Ok in E
         end.

(** C1.  When [parse_args] returns a dictionary for a 22-element vector,
    with [T = 0.00690077 * ((radius * 0.0254) ** -2) * 39.3701 + 10] for the
    radius at index 2: [body_len] is the value at index 5 times [T], and
    [dry_CoM] is what [_scale] returns for the value at index 3 between
    [nose_len + body_len - T/2] and [nose_len + body_len - T/3], [nose_len]
    being the value at index 4. *)
Theorem parse_args_body_len_dry_CoM (args : list Q) (d : Design.t) :
  List.length args = 22%nat ->
  parse_args args = Ok d ->
  exists radius a3 nose_len a5 T,
    nth_error args 2 = Some radius /\
    nth_error args 3 = Some a3 /\
    nth_error args 4 = Some nose_len /\
    nth_error args 5 = Some a5 /\
    T = 0.00690077 * (radius * 0.0254) ^ (-2) * 39.3701 + 10 /\
    T == 0.00690077 * / ((radius * 0.0254) * (radius * 0.0254)) * 39.3701 + 10 /\
    Design.body_len d = a5 * T /\
    _scale a3 (nose_len + Design.body_len d - T / 2)
              (nose_len + Design.body_len d - T / 3)
      = Ok (Design.dry_CoM d).
Proof.
  intros _ H. decode_inv H. cbn [Design.body_len Design.dry_CoM].
  match goal with
  | E : tank_and_engine_len _ = Ok _ |- _ =>
      apply tank_and_engine_len_inv in E as [_ ->]
  end.
  eexists _, _, _, _, _. repeat split; eauto.
Qed.

Lemma parse_args_body_len_dry_CoM_witness :
  exists radius a3 nose_len a5 T,
    nth_error example_vector 2 = Some radius /\
    nth_error example_vector 3 = Some a3 /\
    nth_error example_vector 4 = Some nose_len /\
    nth_error example_vector 5 = Some a5 /\
    T = 0.00690077 * (radius * 0.0254) ^ (-2) * 39.3701 + 10 /\
    T == 0.00690077 * / ((radius * 0.0254) * (radius * 0.0254)) * 39.3701 + 10 /\
    Design.body_len example_design = a5 * T /\
    _scale a3 (nose_len + Design.body_len example_design - T / 2)
              (nose_len + Design.body_len example_design - T / 3)
      = Ok (Design.dry_CoM example_design).
Proof.
  apply (parse_args_body_len_dry_CoM example_vector example_design);
    vm_compute; reflexivity.
Defined.

Lemma contains_one_of (x : Q) (l : list Q) :
  contains x l = true <-> one_of x l.
Proof.
  unfold contains, one_of. rewrite existsb_exists, Exists_exists.
  split; intros (y & Hy & E); exists y; split; trivial;
    now apply Qeq_bool_iff.
Qed.

Lemma not_contains_one_of (x : Q) (l : list Q) :
  contains x l = false <-> ~ one_of x l.
Proof.
  rewrite <- contains_one_of. destruct (contains x l); split; congruence.
Qed.

Lemma Qeq_bool_proper (x y z : Q) : x == y -> Qeq_bool x z = Qeq_bool y z.
Proof.
  intros E. destruct (Qeq_bool y z) eqn:Ey.
  - apply Qeq_bool_iff in Ey. apply Qeq_bool_iff. now rewrite E.
  - apply Qeq_bool_neq in Ey. destruct (Qeq_bool x z) eqn:Ex; trivial.
    apply Qeq_bool_iff in Ex. rewrite E in Ex. contradiction.
Qed.

Lemma contains_proper (x y : Q) (l : list Q) :
  x == y -> contains x l = contains y l.
Proof.
  intros E. unfold contains. induction l as [|z l IH]; cbn; trivial.
  now rewrite IH, (Qeq_bool_proper x y z E).
Qed.

(** The three conditional keys, as the conditions the code evaluates. *)
Lemma parse_args_airfoil_cases (args : list Q) (d : Design.t) :
  parse_args args = Ok d ->
  exists fin_shape,
    nth_error args 17 = Some fin_shape /\
    (if contains fin_shape [1; 3; 4; 5; 6; 7]
     then Design.fin_le_rad d = nth_error args 18 /\ Design.fin_le_rad d <> None
     else Design.fin_le_rad d = None) /\
    (if contains fin_shape [1; 3; 6]
     then Design.fin_le_len d = nth_error args 19 /\ Design.fin_le_len d <> None
     else Design.fin_le_len d = None) /\
    (if Qeq_bool fin_shape 1
     then Design.fin_te_len d = nth_error args 20 /\ Design.fin_te_len d <> None
     else Design.fin_te_len d = None).
Proof.
  intros H. decode_inv H.
  cbn [Design.fin_le_rad Design.fin_le_len Design.fin_te_len].
  repeat match goal with
         | E : getitem_if _ _ _ = Ok _ |- _ => apply getitem_if_Ok in E
         end.
  eauto.
Qed.

(** Decide a condition on the fin shape once the shape is known. *)
Ltac shape_known C H :=
  match type of H with
  | if contains ?x ?l then _ else _ =>
      rewrite (contains_proper x _ l C) in H
  | if Qeq_bool ?x ?z then _ else _ =>
      rewrite (Qeq_bool_proper x _ z C) in H
  end;
  match type of H with
  | if ?b then _ else _ =>
      let v := eval vm_compute in b in change b with v in H
  end;
  cbv iota in H.

(** C6.  In the dictionary [parse_args] returns, with [fin_shape] the value
    at index 17: [fin_le_rad] is the value at index 18 when [fin_shape] is
    one of 1, 3, 4, 5, 6, 7 and [None] otherwise; [fin_le_len] is the value
    at index 19 when [fin_shape] is one of 1, 3, 6 and [None] otherwise;
    [fin_te_len] is the value at index 20 when [fin_shape] is 1 and [None]
    otherwise.  So shape 2 gives three [None], shape 1 three values, and
    shape 3 the first two values and [None] for [fin_te_len]. *)
Theorem parse_args_airfoil_keys (args : list Q) (d : Design.t) :
  parse_args args = Ok d ->
  exists fin_shape,
    nth_error args 17 = Some fin_shape /\
    (one_of fin_shape [1; 3; 4; 5; 6; 7] ->
       Design.fin_le_rad d = nth_error args 18 /\ Design.fin_le_rad d <> None) /\
    (~ one_of fin_shape [1; 3; 4; 5; 6; 7] -> Design.fin_le_rad d = None) /\
    (one_of fin_shape [1; 3; 6] ->
       Design.fin_le_len d = nth_error args 19 /\ Design.fin_le_len d <> None) /\
    (~ one_of fin_shape [1; 3; 6] -> Design.fin_le_len d = None) /\
    (fin_shape == 1 ->
       Design.fin_te_len d = nth_error args 20 /\ Design.fin_te_len d <> None) /\
    (~ fin_shape == 1 -> Design.fin_te_len d = None) /\
    (fin_shape == 2 ->
       Design.fin_le_rad d = None /\ Design.fin_le_len d = None /\
       Design.fin_te_len d = None) /\
    (fin_shape == 1 ->
       Design.fin_le_rad d <> None /\ Design.fin_le_len d <> None /\
       Design.fin_te_len d <> None) /\
    (fin_shape == 3 ->
       Design.fin_le_rad d <> None /\ Design.fin_le_len d <> None /\
       Design.fin_te_len d = None).
Proof.
  intros H.
  destruct (parse_args_airfoil_cases args d H) as (fs & E17 & Hrad & Hlen & Hte).
  exists fs. split; [exact E17|].
  repeat apply conj.
  - intros C. apply contains_one_of in C. now rewrite C in Hrad.
  - intros C. apply not_contains_one_of in C. now rewrite C in Hrad.
  - intros C. apply contains_one_of in C. now rewrite C in Hlen.
  - intros C. apply not_contains_one_of in C. now rewrite C in Hlen.
  - intros C. apply Qeq_bool_iff in C. now rewrite C in Hte.
  - intros C. destruct (Qeq_bool fs 1) eqn:B; [|exact Hte].
    apply Qeq_bool_iff in B. contradiction.
  - intros C. shape_known C Hrad. shape_known C Hlen. shape_known C Hte.
    auto.
  - intros C. shape_known C Hrad. shape_known C Hlen. shape_known C Hte.
    intuition.
  - intros C. shape_known C Hrad. shape_known C Hlen. shape_known C Hte.
    intuition.
Qed.

Lemma parse_args_airfoil_keys_witness :
  exists fin_shape,
    nth_error example_vector 17 = Some fin_shape /\
    (one_of fin_shape [1; 3; 4; 5; 6; 7] ->
       Design.fin_le_rad example_design = nth_error example_vector 18 /\
       Design.fin_le_rad example_design <> None) /\
    (~ one_of fin_shape [1; 3; 4; 5; 6; 7] ->
       Design.fin_le_rad example_design = None) /\
    (one_of fin_shape [1; 3; 6] ->
       Design.fin_le_len example_design = nth_error example_vector 19 /\
       Design.fin_le_len example_design <> None) /\
    (~ one_of fin_shape [1; 3; 6] -> Design.fin_le_len example_design = None) /\
    (fin_shape == 1 ->
       Design.fin_te_len example_design = nth_error example_vector 20 /\
       Design.fin_te_len example_design <> None) /\
    (~ fin_shape == 1 -> Design.fin_te_len example_design = None) /\
    (fin_shape == 2 ->
       Design.fin_le_rad example_design = None /\
       Design.fin_le_len example_design = None /\
       Design.fin_te_len example_design = None) /\
    (fin_shape == 1 ->
       Design.fin_le_rad example_design <> None /\
       Design.fin_le_len example_design <> None /\
       Design.fin_te_len example_design <> None) /\
    (fin_shape == 3 ->
       Design.fin_le_rad example_design <> None /\
       Design.fin_le_len example_design <> None /\
       Design.fin_te_len example_design = None).
Proof.
  apply (parse_args_airfoil_keys example_vector example_design).
  vm_compute. reflexivity.
Defined.

(** C8.  In the dictionary [parse_args] returns, [fin_thickness] is the
    value at index 15 divided by 8 and [CH4_tube_radius] the value at index
    21 divided by 8; a value of 8 gives 1. *)
Theorem parse_args_eighths (args : list Q) (d : Design.t) :
  parse_args args = Ok d ->
  exists a15 a21,
    nth_error args 15 = Some a15 /\
    nth_error args 21 = Some a21 /\
    Design.fin_thickness d = a15 / 8 /\
    Design.CH4_tube_radius d = a21 / 8 /\
    (a15 == 8 -> Design.fin_thickness d == 1) /\
    (a21 == 8 -> Design.CH4_tube_radius d == 1).
Proof.
  intros H. decode_inv H.
  cbn [Design.fin_thickness Design.CH4_tube_radius].
  eexists _, _. repeat apply conj; eauto.
  - intros ->. reflexivity.
  - intros ->. reflexivity.
Qed.

Lemma parse_args_eighths_witness :
  exists a15 a21,
    nth_error example_vector 15 = Some a15 /\
    nth_error example_vector 21 = Some a21 /\
    Design.fin_thickness example_design = a15 / 8 /\
    Design.CH4_tube_radius example_design = a21 / 8 /\
    (a15 == 8 -> Design.fin_thickness example_design == 1) /\
    (a21 == 8 -> Design.CH4_tube_radius example_design == 1).
Proof.
  apply (parse_args_eighths example_vector example_design).
  vm_compute. reflexivity.
Defined.

Lemma tank_and_engine_len_zero (r : Q) :
  r == 0 -> tank_and_engine_len r = Raise ZeroDivisionError.
Proof.
  intros Hr. unfold tank_and_engine_len, pow.
  assert (E : Qeq_bool (r * 0.0254) 0 = true).
  { apply Qeq_bool_iff. rewrite Hr. reflexivity. }
  rewrite E. reflexivity.
Qed.

(** C7.  For a vector whose value at index 2 is zero, [parse_args] raises
    and returns no dictionary; when the vector is long enough for the three
    reads that come first (indices 2, 4 and 5), and so for every 22-element
    vector, the exception is the [ZeroDivisionError] of the power. *)
Theorem parse_args_zero_radius (args : list Q) (radius : Q) :
  nth_error args 2 = Some radius ->
  radius == 0 ->
  raises (parse_args args) /\
  (forall d, parse_args args <> Ok d) /\
  ((6 <= List.length args)%nat -> parse_args args = Raise ZeroDivisionError).
Proof.
  intros E2 Hr.
  assert (H : parse_args args = Raise IndexError \/
              parse_args args = Raise ZeroDivisionError).
  { unfold parse_args. apply getitem_Ok in E2. rewrite E2. cbn [bind].
    destruct (getitem_cases args 4) as [[a4 ->] | ->]; cbn [bind];
      [|now left].
    destruct (getitem_cases args 5) as [[a5 ->] | ->]; cbn [bind];
      [|now left].
    rewrite tank_and_engine_len_zero by exact Hr. now right. }
  repeat apply conj.
  - destruct H as [-> | ->]; eexists; reflexivity.
  - intros d. destruct H as [-> | ->]; discriminate.
  - intros Hlen. unfold parse_args. apply getitem_Ok in E2. rewrite E2.
    cbn [bind].
    destruct (nth_error args 4) as [a4|] eqn:E4.
    2:{ apply nth_error_None in E4. lia. }
    destruct (nth_error args 5) as [a5|] eqn:E5.
    2:{ apply nth_error_None in E5. lia. }
    apply getitem_Ok in E4, E5. rewrite E4, E5. cbn [bind].
    now rewrite tank_and_engine_len_zero by exact Hr.
Qed.

Lemma parse_args_zero_radius_witness :
  raises (parse_args zero_radius_vector) /\
  (forall d, parse_args zero_radius_vector <> Ok d) /\
  ((6 <= List.length zero_radius_vector)%nat ->
   parse_args zero_radius_vector = Raise ZeroDivisionError).
Proof.
  apply (parse_args_zero_radius zero_radius_vector 0); reflexivity.
Defined.

(** ** [parse_args] on a vector within the sampling bounds *)

Lemma pow_minus2_pos (x : Q) : ~ x == 0 -> 0 < x ^ (-2).
Proof.
  intros Hx. rewrite Qpower_minus2. apply Qinv_lt_0_compat.
  destruct (Qlt_le_dec 0 x) as [Hp | Hn].
  - nra.
  - assert (x < 0) by (apply Qle_lteq in Hn as [H | H]; [exact H | contradiction]).
    nra.
Qed.

Lemma tank_and_engine_len_Ok (r : Q) :
  ~ r == 0 ->
  tank_and_engine_len r = Ok (0.00690077 * (r * 0.0254) ^ (-2) * 39.3701 + 10).
Proof.
  intros Hr. unfold tank_and_engine_len, pow.
  assert (E : Qeq_bool (r * 0.0254) 0 = false).
  { destruct (Qeq_bool (r * 0.0254) 0) eqn:B; trivial.
    apply Qeq_bool_iff in B. exfalso. apply Hr. lra. }
  rewrite E. reflexivity.
Qed.

Lemma Qdiv_2 (x : Q) : x / 2 == x * (1 # 2).
Proof. reflexivity. Qed.

Lemma Qdiv_3 (x : Q) : x / 3 == x * (1 # 3).
Proof. reflexivity. Qed.

Section WithinBounds.

Variables radius nose_len body_len_frac : Q.
Hypothesis radius_lo : 2 <= radius.
Hypothesis nose_len_lo : 2 <= nose_len.
Hypothesis body_len_frac_lo : 1.5 <= body_len_frac.

Let T : Q := 0.00690077 * (radius * 0.0254) ^ (-2) * 39.3701 + 10.
Let body_len : Q := body_len_frac * T.
Let half : Q := (body_len + nose_len) / 2.

Lemma tank_and_engine_len_gt_10 : 10 < T.
Proof.
  assert (Hp : 0 < (radius * 0.0254) ^ (-2)).
  { apply pow_minus2_pos. intros E. lra. }
  unfold T. set (p := (radius * 0.0254) ^ (-2)) in *. lra.
Qed.

Lemma body_len_gt_15 : 15 < body_len.
Proof.
  pose proof tank_and_engine_len_gt_10. unfold body_len. nra.
Qed.

Lemma half_ge_2 : 2 <= half.
Proof.
  pose proof body_len_gt_15. unfold half. rewrite Qdiv_2. lra.
Qed.

Lemma dry_CoM_bounds_ordered :
  nose_len + body_len - T / 2 <= nose_len + body_len - T / 3.
Proof.
  pose proof tank_and_engine_len_gt_10. rewrite Qdiv_2, Qdiv_3. lra.
Qed.

(** The six [_scale] calls succeed on proportions in [[0, 1]]. *)
Lemma scale_calls_Ok (a3 a11 a12 a13 a14 a16 : Q) :
  0 <= a3 <= 1 -> 0 <= a11 <= 1 -> 0 <= a12 <= 1 ->
  0 <= a13 <= 1 -> 0 <= a14 <= 1 -> 0 <= a16 <= 1 ->
  let fin_root_chord := a11 * (half - 2) + 2 in
  _scale a11 2 half = Ok fin_root_chord /\
  _scale a3 (nose_len + body_len - T / 2) (nose_len + body_len - T / 3)
    = Ok (a3 * (nose_len + body_len - T / 3 - (nose_len + body_len - T / 2))
          + (nose_len + body_len - T / 2)) /\
  _scale a12 2 half = Ok (a12 * (half - 2) + 2) /\
  _scale a13 0 fin_root_chord = Ok (a13 * (fin_root_chord - 0) + 0) /\
  _scale a14 0 fin_root_chord = Ok (a14 * (fin_root_chord - 0) + 0) /\
  _scale a16 fin_root_chord half
    = Ok (a16 * (half - fin_root_chord) + fin_root_chord) /\
  fin_root_chord <= half.
Proof.
  intros [] [] [] [] [] [] frc.
  pose proof half_ge_2 as Hh.
  pose proof dry_CoM_bounds_ordered as Hc.
  destruct (scale_range a11 2 half) as [Hlo Hhi]; trivial.
  fold frc in Hlo, Hhi.
  repeat apply conj; try (apply _scale_Ok; trivial; lra).
  exact Hhi.
Qed.

End WithinBounds.

Section Progress.

Variable args : list Q.

Lemma progress_getitem (i : nat) (k : Q -> result Design.t) :
  (i < 22)%nat ->
  (forall v, nth_error args i = Some v -> returns_unless_short args (k v)) ->
  returns_unless_short args (bind args.[i] k).
Proof.
  intros Hi Hk. unfold getitem.
  destruct (nth_error args i) as [v|] eqn:E; cbn [bind].
  - now apply Hk.
  - right. split; [reflexivity|]. apply nth_error_None in E. lia.
Qed.

Lemma progress_getitem_if (c : bool) (i : nat)
      (k : option Q -> result Design.t) :
  (i < 22)%nat ->
  (forall o, returns_unless_short args (k o)) ->
  returns_unless_short args (bind (getitem_if c args i) k).
Proof.
  intros Hi Hk. unfold getitem_if, getitem. destruct c; cbn [bind].
  - destruct (nth_error args i) as [v|] eqn:E; cbn [bind].
    + apply Hk.
    + right. split; [reflexivity|]. apply nth_error_None in E. lia.
  - apply Hk.
Qed.

Lemma progress_Ok {A : Type} (m : result A) (a : A)
      (k : A -> result Design.t) :
  m = Ok a ->
  returns_unless_short args (k a) ->
  returns_unless_short args (bind m k).
Proof. now intros ->. Qed.

End Progress.

Lemma within_sampling_bounds_inv (args : list Q) :
  within_sampling_bounds args ->
  exists radius nose_len body_len_frac a3 a11 a12 a13 a14 a16,
    (nth_error args 2 = Some radius /\ 2 <= radius /\ radius <= 12) /\
    (nth_error args 4 = Some nose_len /\ 2 <= nose_len /\ nose_len <= 30) /\
    (nth_error args 5 = Some body_len_frac /\
     1.5 <= body_len_frac /\ body_len_frac <= 4) /\
    (nth_error args 3 = Some a3 /\ 0 <= a3 <= 1) /\
    (nth_error args 11 = Some a11 /\ 0 <= a11 <= 1) /\
    (nth_error args 12 = Some a12 /\ 0 <= a12 <= 1) /\
    (nth_error args 13 = Some a13 /\ 0 <= a13 <= 1) /\
    (nth_error args 14 = Some a14 /\ 0 <= a14 <= 1) /\
    (nth_error args 16 = Some a16 /\ 0 <= a16 <= 1).
Proof.
  intros ((r & ? & ? & ?) & (nl & ? & ? & ?) & (f & ? & ? & ?) & HF).
  repeat match goal with
         | H : Forall _ (_ :: _) |- _ =>
             let v := fresh "v" in
             apply Forall_cons_iff in H as [(v & ? & ? & ?) H]
         end.
  exists r, nl, f. eexists _, _, _, _, _, _. repeat apply conj; eauto.
Qed.

(** On a vector within the sampling bounds every statement of [parse_args]
    goes through, unless the vector is too short for an index. *)
Lemma parse_args_progress (args : list Q) :
  within_sampling_bounds args ->
  returns_unless_short args (parse_args args).
Proof.
  intros H.
  destruct (within_sampling_bounds_inv args H)
    as (r & nl & f & a3 & a11 & a12 & a13 & a14 & a16 &
        (E2 & ? & ?) & (E4 & ? & ?) & (E5 & ? & ?) &
        (E3 & ?) & (E11 & ?) & (E12 & ?) & (E13 & ?) & (E14 & ?) &
        (E16 & ?)).
  destruct (scale_calls_Ok r nl f ltac:(assumption) ltac:(assumption)
              ltac:(assumption) a3 a11 a12 a13 a14 a16)
    as (S11 & S3 & S12 & S13 & S14 & S16 & _); trivial.
  cbv zeta in S13, S14, S16.
  assert (HT := tank_and_engine_len_Ok r ltac:(intros E; lra)).
  unfold parse_args.
  repeat first
    [ apply progress_getitem;
      [lia | let v := fresh "v" in let E := fresh "E" in
             intros v E;
             try (rewrite E2 in E; injection E as <-);
             try (rewrite E3 in E; injection E as <-);
             try (rewrite E4 in E; injection E as <-);
             try (rewrite E5 in E; injection E as <-);
             try (rewrite E11 in E; injection E as <-);
             try (rewrite E12 in E; injection E as <-);
             try (rewrite E13 in E; injection E as <-);
             try (rewrite E14 in E; injection E as <-);
             try (rewrite E16 in E; injection E as <-)]
    | apply progress_getitem_if; [lia | intros ?]
    | eapply progress_Ok; [eassumption | cbv zeta] ].
  left. eexists. reflexivity.
Qed.

(** Identify the values read at one index with the one already known. *)
Ltac same_slot Ei :=
  match type of Ei with
  | nth_error ?a ?i = Some ?v =>
      repeat match goal with
             | E' : nth_error a i = Some ?w |- _ =>
                 lazymatch w with
                 | v => fail
                 | _ => rewrite Ei in E'; injection E' as <-
                 end
             end
  end.

(** C10.  On a vector within the sampling bounds (radius in [[2, 12]],
    [nose_len] in [[2, 30]], the body length factor in [[1.5, 4]], the
    proportions at indices 3, 11, 12, 13, 14 and 16 in [[0, 1]]) no assertion
    of [parse_args] fails, and a 22-element vector is decoded to a
    dictionary: [tank_and_engine_len] is positive, so the bounds of
    [dry_CoM] are ordered; [body_len] exceeds 15, so half of
    [body_len + nose_len] is at least 2; and [fin_root_chord] is at most
    that half, so the bounds of [fin_base_sep] are ordered. *)
Theorem parse_args_within_sampling_bounds (args : list Q) :
  within_sampling_bounds args ->
  parse_args args <> Raise AssertionError /\
  (List.length args = 22%nat ->
   exists d T,
     parse_args args = Ok d /\
     tank_and_engine_len (Design.radius d) = Ok T /\
     0 < T /\
     Design.nose_len d + Design.body_len d - T / 2
       <= Design.nose_len d + Design.body_len d - T / 3 /\
     15 < Design.body_len d /\
     2 <= (Design.body_len d + Design.nose_len d) / 2 /\
     Design.fin_root_chord d
       <= (Design.body_len d + Design.nose_len d) / 2).
Proof.
  intros H. pose proof (parse_args_progress args H) as [[d Hd] | [Hs Hlen]].
  2:{ split; [rewrite Hs; discriminate | intros; lia]. }
  split; [rewrite Hd; discriminate|]. intros _.
  destruct (within_sampling_bounds_inv args H)
    as (r & nl & f & a3 & a11 & a12 & a13 & a14 & a16 &
        (E2 & ? & ?) & (E4 & ? & ?) & (E5 & ? & ?) &
        _ & (E11 & ?) & _).
  pose proof Hd as Hinv. decode_inv Hinv.
  same_slot E2. same_slot E4. same_slot E5. same_slot E11.
  match goal with
  | E : tank_and_engine_len r = Ok ?T |- _ =>
      eexists _, T; split; [exact Hd|]; split; [exact E|];
      apply tank_and_engine_len_inv in E as [_ ->]
  end.
  cbn [Design.radius Design.nose_len Design.body_len Design.fin_root_chord].
  match goal with
  | E : _scale a11 2 _ = Ok _ |- _ =>
      apply _scale_inv in E as (_ & _ & _ & ->)
  end.
  pose proof (tank_and_engine_len_gt_10 r ltac:(assumption)).
  pose proof (dry_CoM_bounds_ordered r nl f ltac:(assumption)).
  pose proof (body_len_gt_15 r f ltac:(assumption) ltac:(assumption)).
  pose proof (half_ge_2 r nl f ltac:(assumption) ltac:(assumption)
                ltac:(assumption)).
  destruct (scale_calls_Ok r nl f ltac:(assumption) ltac:(assumption)
              ltac:(assumption) a11 a11 a11 a11 a11 a11)
    as (_ & _ & _ & _ & _ & _ & Hfrc); trivial.
  repeat apply conj; trivial. lra.
Qed.

Lemma parse_args_within_sampling_bounds_witness :
  parse_args example_vector <> Raise AssertionError /\
  (List.length example_vector = 22%nat ->
   exists d T,
     parse_args example_vector = Ok d /\
     tank_and_engine_len (Design.radius d) = Ok T /\
     0 < T /\
     Design.nose_len d + Design.body_len d - T / 2
       <= Design.nose_len d + Design.body_len d - T / 3 /\
     15 < Design.body_len d /\
     2 <= (Design.body_len d + Design.nose_len d) / 2 /\
     Design.fin_root_chord d
       <= (Design.body_len d + Design.nose_len d) / 2).
Proof.
  apply (parse_args_within_sampling_bounds example_vector).
  unfold within_sampling_bounds, slot_within.
  repeat apply conj.
  - exists 10. repeat split; [lra | lra].
  - exists 20. repeat split; [lra | lra].
  - exists 2. repeat split; [lra | lra].
  - repeat constructor; exists 0.5; repeat split; lra.
Defined.

(** ** [get_sample_space] *)

(** A learnable slot holds the caller's value when it is truthy, and
    otherwise the descriptor of its row, the one [get_sample_space] gives
    with the defaults. *)
Lemma get_sample_space_learnable (a : arguments) (p : Param.t) :
  Param.learnable p = true ->
  exists x,
    descriptor_of_row (Param.index p) (Expr x) /\
    nth_error (get_sample_space a) (Param.index p)
      = Some (if truthy (a p) then Val (a p) else Expr x) /\
    nth_error (get_sample_space defaults) (Param.index p) = Some (Expr x).
Proof.
  intros Hp. destruct p; try discriminate Hp;
    (match goal with
     | |- exists x, _ /\ _ /\ nth_error ?l ?i = Some (Expr x) =>
         let e := eval cbv in (nth_error l i) in
         match e with
         | Some (Expr ?y) => exists y
         end
     end;
     split;
     [ eexists _, _, _; repeat split; reflexivity
     | split;
       [ cbn [get_sample_space nth_error Param.index]; unfold py_or;
         destruct (truthy (a _)); reflexivity
       | reflexivity ] ]).
Qed.

(** The two fixed slots hold the caller's value as it is. *)
Lemma get_sample_space_fixed (a : arguments) (p : Param.t) :
  Param.learnable p = false ->
  nth_error (get_sample_space a) (Param.index p) = Some (Val (a p)).
Proof.
  intros Hp. destruct p; try discriminate Hp; reflexivity.
Qed.

(** C3.  For a learnable parameter, a truthy value passed by the caller is
    the entry of the list at the parameter's slot; when the parameter is
    omitted the entry is an expression labelled with the row's name whose
    distribution is the one of the canonical table.  With nothing passed:
    [radius] is uniform on [[2, 12]], [fin_count] a choice among 3 and 4,
    [fin_thickness] quantized uniform on [[1, 10]] with step 1, and
    [nose_shape] is 1 plus a random integer below 7. *)
Theorem get_sample_space_fix_or_default (a : arguments) (p : Param.t) :
  Param.learnable p = true ->
  (truthy (a p) = true ->
   nth_error (get_sample_space a) (Param.index p) = Some (Val (a p))) /\
  (a p = PyNone -> is_descriptor (get_sample_space a) p) /\
  is_descriptor (get_sample_space defaults) p /\
  nth_error (get_sample_space defaults) 2
    = Some (Expr (hp.uniform "radius" 2 12)) /\
  nth_error (get_sample_space defaults) 10
    = Some (Expr (hp.choice "fin_count" [3; 4])) /\
  nth_error (get_sample_space defaults) 15
    = Some (Expr (hp.quniform "fin_thickness" 1 10 1)) /\
  nth_error (get_sample_space defaults) 7
    = Some (Expr (hp.add 1 (hp.randint "nose_shape" 7))) /\
  describe (hp.uniform "radius" 2 12) = Some (Table.Uniform 2 12) /\
  describe (hp.choice "fin_count" [3; 4]) = Some (Table.Categorical [3; 4]) /\
  describe (hp.quniform "fin_thickness" 1 10 1)
    = Some (Table.QuantizedUniform 1 10 1) /\
  describe (hp.add 1 (hp.randint "nose_shape" 7))
    = Some (Table.IntegerOffsetChoice 7 1).
Proof.
  intros Hp.
  destruct (get_sample_space_learnable a p Hp) as (x & Hrow & Ha & Hd).
  repeat apply conj; try reflexivity.
  - intros Ht. now rewrite Ht in Ha.
  - intros Hn. rewrite Hn in Ha. cbn [truthy] in Ha. now exists (Expr x).
  - now exists (Expr x).
Qed.

Lemma get_sample_space_fix_or_default_witness :
  (truthy (fin_le_rad_given Param.fin_le_rad) = true ->
   nth_error (get_sample_space fin_le_rad_given)
             (Param.index Param.fin_le_rad)
     = Some (Val (fin_le_rad_given Param.fin_le_rad))) /\
  (fin_le_rad_given Param.fin_le_rad = PyNone ->
   is_descriptor (get_sample_space fin_le_rad_given) Param.fin_le_rad) /\
  is_descriptor (get_sample_space defaults) Param.fin_le_rad /\
  nth_error (get_sample_space defaults) 2
    = Some (Expr (hp.uniform "radius" 2 12)) /\
  nth_error (get_sample_space defaults) 10
    = Some (Expr (hp.choice "fin_count" [3; 4])) /\
  nth_error (get_sample_space defaults) 15
    = Some (Expr (hp.quniform "fin_thickness" 1 10 1)) /\
  nth_error (get_sample_space defaults) 7
    = Some (Expr (hp.add 1 (hp.randint "nose_shape" 7))) /\
  describe (hp.uniform "radius" 2 12) = Some (Table.Uniform 2 12) /\
  describe (hp.choice "fin_count" [3; 4]) = Some (Table.Categorical [3; 4]) /\
  describe (hp.quniform "fin_thickness" 1 10 1)
    = Some (Table.QuantizedUniform 1 10 1) /\
  describe (hp.add 1 (hp.randint "nose_shape" 7))
    = Some (Table.IntegerOffsetChoice 7 1).
Proof.
  apply (get_sample_space_fix_or_default fin_le_rad_given Param.fin_le_rad).
  reflexivity.
Defined.

(** C4.  For a learnable parameter, a falsy value ([None] and 0 are falsy)
    is treated as a parameter that was not given: the entry at its slot is
    the descriptor of its row, the same entry as with the defaults, and not
    the value passed. *)
Theorem get_sample_space_falsy (a : arguments) (p : Param.t) :
  Param.learnable p = true ->
  truthy (a p) = false ->
  truthy PyNone = false /\
  truthy (PyNum 0) = false /\
  is_descriptor (get_sample_space a) p /\
  nth_error (get_sample_space a) (Param.index p)
    = nth_error (get_sample_space defaults) (Param.index p) /\
  nth_error (get_sample_space a) (Param.index p) <> Some (Val (a p)) /\
  nth_error (get_sample_space a) (Param.index p) <> Some (Val (PyNum 0)).
Proof.
  intros Hp Hf.
  destruct (get_sample_space_learnable a p Hp) as (x & Hrow & Ha & Hd).
  rewrite Hf in Ha. rewrite Ha, Hd.
  repeat apply conj; try reflexivity; try discriminate.
  exists (Expr x). now rewrite Ha.
Qed.

Lemma get_sample_space_falsy_witness :
  truthy PyNone = false /\
  truthy (PyNum 0) = false /\
  is_descriptor (get_sample_space nose_tip_di_zero) Param.nose_tip_di /\
  nth_error (get_sample_space nose_tip_di_zero)
            (Param.index Param.nose_tip_di)
    = nth_error (get_sample_space defaults) (Param.index Param.nose_tip_di) /\
  nth_error (get_sample_space nose_tip_di_zero)
            (Param.index Param.nose_tip_di)
    <> Some (Val (nose_tip_di_zero Param.nose_tip_di)) /\
  nth_error (get_sample_space nose_tip_di_zero)
            (Param.index Param.nose_tip_di)
    <> Some (Val (PyNum 0)).
Proof.
  apply (get_sample_space_falsy nose_tip_di_zero Param.nose_tip_di);
    reflexivity.
Defined.

(** C9.  Whatever the arguments, [get_sample_space] returns 22 entries, and
    the entry at index [i] belongs to the parameter named in row [i] of the
    canonical table ([dry_mass] at 0, [thrust_margin] at 1, [radius] at 2,
    ... [ch4_tube_radius] at 21).  For the two fixed parameters it is the
    value passed; for a learnable parameter (the rows from index 2 on) it is
    the value passed when that value is truthy, and the descriptor of the
    row otherwise. *)
Theorem get_sample_space_order (a : arguments) :
  List.length (get_sample_space a) = 22%nat /\
  map Param.name Param.all = map fst Table.canonical /\
  map Param.index Param.all = seq 0 22 /\
  map Param.learnable Param.all
    = map (fun i => (2 <=? i)%nat) (seq 0 22) /\
  nth_error (map fst Table.canonical) 0 = Some "dry_mass"%string /\
  nth_error (map fst Table.canonical) 1 = Some "thrust_margin"%string /\
  nth_error (map fst Table.canonical) 2 = Some "radius"%string /\
  nth_error (map fst Table.canonical) 21 = Some "ch4_tube_radius"%string /\
  forall (i : nat) (name : string) (k : Table.kind),
    nth_error Table.canonical i = Some (name, k) ->
    exists p e,
      Param.index p = i /\
      Param.name p = name /\
      nth_error (get_sample_space a) i = Some e /\
      (Param.learnable p = false -> e = Val (a p)) /\
      (Param.learnable p = true -> truthy (a p) = true -> e = Val (a p)) /\
      (Param.learnable p = true -> truthy (a p) = false ->
       descriptor_of_row i e).
Proof.
  repeat apply conj; try reflexivity.
  intros i name k Hrow.
  assert (Hp : exists p, Param.index p = i /\ Param.name p = name).
  { do 22 (destruct i as [|i];
           [ injection Hrow as <- _;
             match goal with
             | |- exists p, Param.index p = ?n /\ _ =>
                 let e := eval cbv in (nth_error Param.all n) in
                 match e with
                 | Some ?q => exists q
                 end
             end; split; reflexivity |]).
    destruct i; discriminate Hrow. }
  destruct Hp as (p & <- & <-). exists p.
  destruct (Param.learnable p) eqn:L.
  - destruct (get_sample_space_learnable a p L) as (x & Hx & Ha & _).
    eexists. split; [reflexivity|]. split; [reflexivity|].
    split; [exact Ha|].
    split; [discriminate|]. split.
    + intros _ Ht. now rewrite Ht.
    + intros _ Ht. now rewrite Ht.
  - eexists. split; [reflexivity|]. split; [reflexivity|].
    split; [now apply get_sample_space_fixed|].
    split; [reflexivity|]. split; discriminate.
Qed.

(** ** The preset spaces *)

(** C5, as stated, fails: [space_few] has 6 scalar learnable slots and
    [space_body] 13, not 8 and 15. *)
Lemma presets_pinned_as_stated_fails :
  ~ (pinned space_all = 0%nat /\
     pinned space_most = 4%nat /\
     pinned space_few = 8%nat /\
     pinned space_body = 15%nat).
Proof.
  intros (_ & _ & Hfew & _). vm_compute in Hfew. discriminate Hfew.
Qed.

Lemma Forall_filter_impl {A : Type} (f : A -> bool) (P R : A -> Prop)
      (l : list A) :
  (forall x, f x = true -> R x -> P x) ->
  Forall R (filter f l) -> Forall P (filter f l).
Proof.
  intros HPR. induction l as [|a l IH]; cbn [filter]; [constructor|].
  destruct (f a) eqn:Ea; [|exact IH].
  intros HR. apply Forall_cons_iff in HR as [Ha Hl].
  constructor; auto.
Qed.

(** A learnable parameter that a call leaves at [None] keeps the descriptor
    of its row. *)
Lemma unnamed_learnable_descriptors (kw : list (Param.t * pyval)) :
  Forall (fun p => call kw p = PyNone) (unnamed_learnable kw) ->
  Forall (is_descriptor (get_sample_space (call kw))) (unnamed_learnable kw).
Proof.
  unfold unnamed_learnable. apply Forall_filter_impl.
  intros p Hl Hnone. apply andb_prop in Hl as [Hl _].
  destruct (get_sample_space_learnable (call kw) p Hl) as (x & Hrow & Ha & _).
  rewrite Hnone in Ha. cbn [truthy] in Ha.
  exists (Expr x). split; [exact Ha | exact Hrow].
Qed.

(** Boolean tests for the two [Forall]s of the presets, to be evaluated. *)
Lemma is_None_all (kw : list (Param.t * pyval)) (l : list Param.t) :
  forallb (fun p => match call kw p with
                    | PyNone => true
                    | PyNum _ => false
                    end) l = true ->
  Forall (fun p => call kw p = PyNone) l.
Proof.
  intros Hb. apply Forall_forall. intros q Hin.
  pose proof (proj1 (forallb_forall _ _) Hb _ Hin) as Hq.
  cbv beta in Hq. now destruct (call kw q).
Qed.

Lemma pinned_to_all (space : list entry) (kw : list (Param.t * pyval)) :
  forallb (fun kv =>
             match nth_error space (Param.index (fst kv)), snd kv with
             | Some (Val (PyNum y)), PyNum x =>
                 (Qnum x =? Qnum y)%Z && (Qden x =? Qden y)%positive
             | _, _ => false
             end) kw = true ->
  Forall (pinned_to space) kw.
Proof.
  intros Hb. apply Forall_forall. intros [q v] Hin.
  pose proof (proj1 (forallb_forall _ _) Hb _ Hin) as Hq.
  unfold pinned_to. cbn [fst snd] in *.
  destruct (nth_error space (Param.index q)) as [[[|[yn yd]]|]|];
    try discriminate Hq.
  destruct v as [|[xn xd]]; try discriminate Hq. cbn [Qnum Qden] in Hq.
  apply andb_prop in Hq as [Hn Hd].
  apply Z.eqb_eq in Hn. apply Pos.eqb_eq in Hd. now subst.
Qed.

(** C5, amended.  [space_all] pins no learnable slot and [space_most]
    exactly 4.  [space_few] is built with 8 keyword arguments and
    [space_body] with 16; each keyword whose value is not zero (6 of the 8,
    13 of the 16, and the 4 of [space_most]) is pinned to that value, and
    every learnable parameter a call does not name is left as the
    descriptor of its row. *)
Theorem presets_pinned :
  pinned space_all = 0%nat /\
  pinned space_most = 4%nat /\
  List.length space_most_kwargs = 4%nat /\
  List.length space_few_kwargs = 8%nat /\
  List.length space_body_kwargs = 16%nat /\
  List.length (nonzero_kwargs space_most_kwargs) = 4%nat /\
  List.length (nonzero_kwargs space_few_kwargs) = 6%nat /\
  List.length (nonzero_kwargs space_body_kwargs) = 13%nat /\
  Forall (pinned_to space_most) (nonzero_kwargs space_most_kwargs) /\
  Forall (pinned_to space_few) (nonzero_kwargs space_few_kwargs) /\
  Forall (pinned_to space_body) (nonzero_kwargs space_body_kwargs) /\
  Forall (is_descriptor space_all) (unnamed_learnable space_all_kwargs) /\
  Forall (is_descriptor space_most) (unnamed_learnable space_most_kwargs) /\
  Forall (is_descriptor space_few) (unnamed_learnable space_few_kwargs) /\
  Forall (is_descriptor space_body) (unnamed_learnable space_body_kwargs).
Proof.
  repeat apply conj.
  1-8: vm_compute; reflexivity.
  1-3: apply pinned_to_all; vm_compute; reflexivity.
  all: apply unnamed_learnable_descriptors, is_None_all;
    vm_compute; reflexivity.
Qed.


(* ================================================================== *)
(** * Further properties *)

(** ** [_scale] *)


(** X2.  [_scale] is monotone in the proportion: between the same bounds, a
    larger proportion never gives a smaller value. *)
Theorem _scale_monotone (v1 v2 lo hi y1 y2 : Q) :
  _scale v1 lo hi = Ok y1 ->
  _scale v2 lo hi = Ok y2 ->
  v1 <= v2 ->
  y1 <= y2.
Proof.
  intros H1 H2 Hv.
  apply _scale_inv in H1 as (_ & _ & Hlh & ->).
  apply _scale_inv in H2 as (_ & _ & _ & ->).
  nra.
Qed.

Lemma _scale_monotone_witness :
  0.25 * (10 - 2) + 2 <= 0.75 * (10 - 2) + 2.
Proof.
  apply (_scale_monotone 0.25 0.75 2 10); [reflexivity | reflexivity | lra].
Defined.

(** ** The tank and engine length *)

Lemma pow_minus2_even (x : Q) : (- x) ^ (-2) == x ^ (-2).
Proof.
  rewrite !Qpower_minus2.
  assert (E : - x * - x == x * x) by ring.
  now rewrite E.
Qed.

Lemma pow_minus2_antitone (x y : Q) :
  0 < x -> x <= y -> y ^ (-2) <= x ^ (-2).
Proof.
  intros Hx Hxy. rewrite !Qpower_minus2.
  assert (Hxx : 0 < x * x) by nra.
  assert (Hyy : 0 < y * y) by nra.
  assert (Hle : x * x <= y * y) by nra.
  apply Qle_lteq in Hle as [Hlt | Heq].
  - apply Qlt_le_weak. now apply -> Qinv_lt_contravar.
  - rewrite Heq. apply Qle_refl.
Qed.

(** X4.  Whenever the tank and engine length is computed for a positive
    radius it is at least 10, and the radius of opposite sign gives the
    same length: a negative radius is not rejected. *)
Theorem tank_and_engine_len_at_least_10 (radius T : Q) :
  0 < radius ->
  tank_and_engine_len radius = Ok T ->
  10 <= T /\
  exists T', tank_and_engine_len (- radius) = Ok T' /\ T' == T.
Proof.
  intros Hpos E.
  assert (Hr : ~ radius == 0) by (intros C; lra).
  assert (Hr' : ~ - radius == 0) by (intros C; lra).
  apply tank_and_engine_len_inv in E as [_ ->]. split.
  - assert (Hp : 0 < (radius * 0.0254) ^ (-2)).
    { apply pow_minus2_pos. intros C. lra. }
    set (p := (radius * 0.0254) ^ (-2)) in *. lra.
  - eexists. split; [now apply tank_and_engine_len_Ok|].
    assert (C : - radius * 0.0254 == - (radius * 0.0254)) by ring.
    rewrite C, pow_minus2_even. reflexivity.
Qed.

Lemma tank_and_engine_len_at_least_10_witness :
  10 <= 0.00690077 * (10 * 0.0254) ^ (-2) * 39.3701 + 10 /\
  exists T',
    tank_and_engine_len (- (10)) = Ok T' /\
    T' == 0.00690077 * (10 * 0.0254) ^ (-2) * 39.3701 + 10.
Proof.
  apply (tank_and_engine_len_at_least_10 10); [lra | reflexivity].
Defined.

(** X5.  The tank and engine length decreases as a positive radius
    grows. *)
Theorem tank_and_engine_len_antitone (r1 r2 T1 T2 : Q) :
  0 < r1 -> r1 <= r2 ->
  tank_and_engine_len r1 = Ok T1 ->
  tank_and_engine_len r2 = Ok T2 ->
  T2 <= T1.
Proof.
  intros H1 H12 E1 E2.
  apply tank_and_engine_len_inv in E1 as [_ ->].
  apply tank_and_engine_len_inv in E2 as [_ ->].
  assert (Hp : (r2 * 0.0254) ^ (-2) <= (r1 * 0.0254) ^ (-2)).
  { apply pow_minus2_antitone; lra. }
  set (p1 := (r1 * 0.0254) ^ (-2)) in *.
  set (p2 := (r2 * 0.0254) ^ (-2)) in *. lra.
Qed.

Lemma tank_and_engine_len_antitone_witness :
  0.00690077 * (12 * 0.0254) ^ (-2) * 39.3701 + 10
  <= 0.00690077 * (2 * 0.0254) ^ (-2) * 39.3701 + 10.
Proof.
  apply (tank_and_engine_len_antitone 2 12); try reflexivity; lra.
Defined.

(** ** [parse_args]: which vectors are decoded *)

(** X6.  [parse_args] returns a dictionary only for a vector whose radius
    is not zero and whose six proportions (indices 3, 11, 12, 13, 14 and
    16) are in [[0, 1]]; the fin root chord it returns is at least 2. *)
Theorem parse_args_returns_only_if (args : list Q) (d : Design.t) :
  parse_args args = Ok d ->
  ~ Design.radius d == 0 /\
  Forall (fun i => slot_within args i 0 1) [3; 11; 12; 13; 14; 16]%nat /\
  2 <= Design.fin_root_chord d.
Proof.
  intros H. decode_inv H. cbn [Design.radius Design.fin_root_chord].
  match goal with
  | E : tank_and_engine_len _ = Ok _ |- _ =>
      apply tank_and_engine_len_inv in E as [Hr _]
  end.
  match goal with
  | E : _scale ?v 2 ?hi = Ok ?y, E' : _scale _ 0 ?y = Ok _ |- _ =>
      pose proof E as Hfrc; apply _scale_inv in Hfrc as (? & ? & ? & Hy);
      assert (Hge : 2 <= y)
        by (rewrite Hy; now apply scale_range)
  end.
  repeat match goal with
         | E : _scale _ _ _ = Ok _ |- _ =>
             apply _scale_inv in E as (? & ? & _ & _)
         end.
  split; [exact Hr|]. split; [|exact Hge].
  repeat (apply Forall_cons; [eexists; repeat split; eassumption|]).
  apply Forall_nil.
Qed.

Lemma parse_args_returns_only_if_witness :
  ~ Design.radius example_design == 0 /\
  Forall (fun i => slot_within example_vector i 0 1)
         [3; 11; 12; 13; 14; 16]%nat /\
  2 <= Design.fin_root_chord example_design.
Proof.
  apply (parse_args_returns_only_if example_vector example_design).
  vm_compute. reflexivity.
Defined.

(** ** [parse_args]: which exception is raised *)

Lemma bind_not_raise {A B : Type} (m : result A) (k : A -> result B)
      (e : exn) :
  m <> Raise e ->
  (forall a, m = Ok a -> k a <> Raise e) ->
  bind m k <> Raise e.
Proof.
  intros Hm Hk. destruct m as [a|e']; cbn [bind].
  - now apply Hk.
  - intros [= ->]. now apply Hm.
Qed.

Lemma getitem_only_IndexError (args : list Q) (i : nat) (e : exn) :
  args.[i] = Raise e -> e = IndexError /\ (List.length args <= i)%nat.
Proof.
  unfold getitem. destruct (nth_error args i) eqn:E; [discriminate|].
  intros [= <-]. split; [reflexivity | now apply nth_error_None].
Qed.

Lemma getitem_if_only_IndexError (c : bool) (args : list Q) (i : nat)
      (e : exn) :
  getitem_if c args i = Raise e ->
  e = IndexError /\ (List.length args <= i)%nat.
Proof.
  unfold getitem_if. destruct c; [|discriminate].
  destruct (args.[i]) eqn:E; cbn [bind]; [discriminate|].
  intros [= <-]. now apply getitem_only_IndexError.
Qed.

Lemma _scale_only_AssertionError (v lo hi : Q) (e : exn) :
  _scale v lo hi = Raise e -> e = AssertionError.
Proof.
  unfold _scale, assert.
  destruct (Qle_bool 0 v && Qle_bool v 1); cbn [bind];
    [destruct (Qle_bool lo hi); cbn [bind] |]; congruence.
Qed.

Lemma tank_and_engine_len_only_ZeroDivisionError (r : Q) (e : exn) :
  tank_and_engine_len r = Raise e -> e = ZeroDivisionError /\ r == 0.
Proof.
  intros H. destruct (Qeq_dec r 0) as [Hz | Hnz].
  - rewrite tank_and_engine_len_zero in H by exact Hz. now injection H as <-.
  - rewrite tank_and_engine_len_Ok in H by exact Hnz. discriminate H.
Qed.

(** Walk the statements of [parse_args] to show an exception is not
    raised; [tac] closes the side goal of each statement. *)
Ltac never_raises tac :=
  unfold parse_args;
  repeat (cbv zeta; apply bind_not_raise; [tac | intros ? ?]);
  try discriminate.

Lemma parse_args_not_IndexError (args : list Q) :
  (22 <= List.length args)%nat -> parse_args args <> Raise IndexError.
Proof.
  intros Hlen.
  never_raises
    ltac:(intros C;
          first [ apply getitem_only_IndexError in C as [_ C]; lia
                | apply getitem_if_only_IndexError in C as [_ C]; lia
                | apply _scale_only_AssertionError in C; discriminate C
                | apply tank_and_engine_len_only_ZeroDivisionError in C
                    as [C _]; discriminate C ]).
Qed.

Lemma getitem_length (args : list Q) (i : nat) (v : Q) :
  args.[i] = Ok v -> (i < List.length args)%nat.
Proof.
  intros E. apply getitem_Ok in E. apply nth_error_Some. congruence.
Qed.

(** X7.  What an exception of [parse_args] tells about the vector:
    [IndexError] is raised only on a vector of fewer than 22 elements;
    [ZeroDivisionError] only once indices 2, 4 and 5 were read, so on at
    least 6 elements; [AssertionError] only once index 11 was read, so on
    at least 12 elements, and only with a radius that is not zero. *)
Theorem parse_args_exception_meaning (args : list Q) (e : exn) :
  parse_args args = Raise e ->
  match e with
  | IndexError => (List.length args < 22)%nat
  | ZeroDivisionError => (6 <= List.length args)%nat
  | AssertionError =>
      (12 <= List.length args)%nat /\
      exists r, nth_error args 2 = Some r /\ ~ r == 0
  end.
Proof.
  intros H. destruct e.
  - destruct (Nat.lt_ge_cases (List.length args) 22) as [Hlt | Hge];
      [exact Hlt|].
    now apply parse_args_not_IndexError in Hge.
  - revert H. unfold parse_args.
    destruct (getitem_cases args 2) as [[a2 E2] | ->]; [|discriminate].
    rewrite E2. cbn [bind].
    destruct (getitem_cases args 4) as [[a4 E4] | ->]; [|discriminate].
    rewrite E4. cbn [bind].
    destruct (getitem_cases args 5) as [[a5 E5] | ->]; [|discriminate].
    intros _. apply getitem_length in E5. lia.
  - revert H. unfold parse_args.
    destruct (getitem_cases args 2) as [[a2 E2] | ->]; [|discriminate].
    rewrite E2. cbn [bind].
    destruct (getitem_cases args 4) as [[a4 E4] | ->]; [|discriminate].
    rewrite E4. cbn [bind].
    destruct (getitem_cases args 5) as [[a5 E5] | ->]; [|discriminate].
    rewrite E5. cbn [bind].
    destruct (Qeq_dec a2 0) as [Hz | Hnz].
    { rewrite tank_and_engine_len_zero by exact Hz. discriminate. }
    rewrite tank_and_engine_len_Ok by exact Hnz. cbn [bind]. cbv zeta.
    destruct (getitem_cases args 11) as [[a11 E11] | ->]; [|discriminate].
    intros _. split.
    + apply getitem_length in E11. lia.
    + exists a2. split; [now apply getitem_Ok | exact Hnz].
Qed.

Lemma parse_args_exception_meaning_witness :
  (6 <= List.length zero_radius_vector)%nat.
Proof.
  apply (parse_args_exception_meaning zero_radius_vector ZeroDivisionError).
  reflexivity.
Defined.

(** ** [parse_args]: the length of the vector *)

(** X8.  A vector of fewer than 22 elements is never decoded, and one of
    fewer than 6 elements (the empty one included) raises [IndexError],
    whatever its values. *)
Theorem parse_args_short (args : list Q) :
  (List.length args < 22)%nat ->
  (forall d, parse_args args <> Ok d) /\
  ((List.length args < 6)%nat -> parse_args args = Raise IndexError).
Proof.
  intros Hlen. split.
  - intros d H. decode_inv H.
    match goal with
    | E : nth_error args 21 = Some _ |- _ =>
        assert (nth_error args 21 <> None) as Hn by congruence;
        apply nth_error_Some in Hn
    end.
    lia.
  - intros H6. unfold parse_args.
    destruct (getitem_cases args 2) as [[a2 E2] | ->]; [|reflexivity].
    rewrite E2. cbn [bind].
    destruct (getitem_cases args 4) as [[a4 E4] | ->]; [|reflexivity].
    rewrite E4. cbn [bind].
    destruct (getitem_cases args 5) as [[a5 E5] | ->]; [|reflexivity].
    apply getitem_Ok in E5.
    assert (nth_error args 5 <> None) as Hn by congruence.
    apply nth_error_Some in Hn. lia.
Qed.

Lemma parse_args_short_witness :
  (forall d, parse_args [] <> Ok d) /\
  ((@List.length Q [] < 6)%nat -> parse_args [] = Raise IndexError).
Proof.
  apply (parse_args_short []). cbn. lia.
Defined.

(** [parse_args] reads the vector at indices below 22 only. *)
Lemma parse_args_ext (args args' : list Q) :
  (forall i, (i < 22)%nat -> nth_error args' i = nth_error args i) ->
  parse_args args' = parse_args args.
Proof.
  intros H. unfold parse_args, getitem_if, getitem.
  rewrite !H by lia. reflexivity.
Qed.

(** X9.  Elements after the 22nd are ignored: a vector of at least 22
    elements is decoded as the vector of its first 22 elements, and
    appending elements to it does not change the result. *)
Theorem parse_args_ignores_tail (args extra : list Q) :
  (22 <= List.length args)%nat ->
  parse_args (args ++ extra) = parse_args args /\
  parse_args (firstn 22 args) = parse_args args.
Proof.
  intros Hlen. split; apply parse_args_ext; intros i Hi.
  - apply nth_error_app1. lia.
  - rewrite nth_error_firstn.
    destruct (i <? 22)%nat eqn:B; [reflexivity|].
    apply Nat.ltb_ge in B. lia.
Qed.

Lemma parse_args_ignores_tail_witness :
  parse_args (example_vector ++ [1; 2; 3]) = parse_args example_vector /\
  parse_args (firstn 22 example_vector) = parse_args example_vector.
Proof.
  apply (parse_args_ignores_tail example_vector [1; 2; 3]). vm_compute. lia.
Defined.

(** ** [parse_args]: the returned dictionary *)

(** X10.  Ten keys of the returned dictionary hold the value read at their
    index, unchanged: [dry_mass] (0), [thrust_margin] (1), [radius] (2),
    [nose_len] (4), [boat_len] (6), [nose_shape] (7), [nose_tip_di] (8),
    [nose_power] (9), [fin_count] (10) and [fin_shape] (17). *)
Theorem parse_args_verbatim (args : list Q) (d : Design.t) :
  parse_args args = Ok d ->
  nth_error args 0 = Some (Design.dry_mass d) /\
  nth_error args 1 = Some (Design.thrust_margin d) /\
  nth_error args 2 = Some (Design.radius d) /\
  nth_error args 4 = Some (Design.nose_len d) /\
  nth_error args 6 = Some (Design.boat_len d) /\
  nth_error args 7 = Some (Design.nose_shape d) /\
  nth_error args 8 = Some (Design.nose_tip_di d) /\
  nth_error args 9 = Some (Design.nose_power d) /\
  nth_error args 10 = Some (Design.fin_count d) /\
  nth_error args 17 = Some (Design.fin_shape d).
Proof.
  intros H. decode_inv H. cbn. repeat apply conj; assumption.
Qed.

Lemma parse_args_verbatim_witness :
  nth_error example_vector 0 = Some (Design.dry_mass example_design) /\
  nth_error example_vector 1 = Some (Design.thrust_margin example_design) /\
  nth_error example_vector 2 = Some (Design.radius example_design) /\
  nth_error example_vector 4 = Some (Design.nose_len example_design) /\
  nth_error example_vector 6 = Some (Design.boat_len example_design) /\
  nth_error example_vector 7 = Some (Design.nose_shape example_design) /\
  nth_error example_vector 8 = Some (Design.nose_tip_di example_design) /\
  nth_error example_vector 9 = Some (Design.nose_power example_design) /\
  nth_error example_vector 10 = Some (Design.fin_count example_design) /\
  nth_error example_vector 17 = Some (Design.fin_shape example_design).
Proof.
  apply (parse_args_verbatim example_vector example_design).
  vm_compute. reflexivity.
Defined.

(** ** [get_sample_space]: what a slot can hold *)

(** X12.  A learnable slot of the returned list never holds [None] nor a
    number equal to zero: a scalar found there is the nonzero value the
    caller passed. *)
Theorem get_sample_space_no_zero (a : arguments) (p : Param.t) :
  Param.learnable p = true ->
  nth_error (get_sample_space a) (Param.index p) <> Some (Val PyNone) /\
  (forall x,
      nth_error (get_sample_space a) (Param.index p) = Some (Val (PyNum x)) ->
      a p = PyNum x /\ ~ x == 0).
Proof.
  intros Hp.
  destruct (get_sample_space_learnable a p Hp) as (e & _ & Ha & _).
  rewrite Ha. destruct (truthy (a p)) eqn:Ht.
  - split.
    + intros [= E]. rewrite E in Ht. discriminate Ht.
    + intros x [= E]. split; [exact E|].
      rewrite E in Ht. cbn [truthy] in Ht.
      intros Hx. apply Qeq_bool_iff in Hx. rewrite Hx in Ht. discriminate Ht.
  - split; [discriminate|]. intros x Hx. discriminate Hx.
Qed.

Lemma get_sample_space_no_zero_witness :
  nth_error (get_sample_space nose_tip_di_zero) (Param.index Param.nose_tip_di)
  <> Some (Val PyNone) /\
  (forall x,
      nth_error (get_sample_space nose_tip_di_zero)
                (Param.index Param.nose_tip_di) = Some (Val (PyNum x)) ->
      nose_tip_di_zero Param.nose_tip_di = PyNum x /\ ~ x == 0).
Proof.
  apply (get_sample_space_no_zero nose_tip_di_zero Param.nose_tip_di).
  reflexivity.
Defined.

Lemma Param_index_inj (p q : Param.t) :
  Param.index p = Param.index q -> p = q.
Proof.
  destruct p, q; cbn; intros H; try reflexivity; discriminate H.
Qed.

Lemma keyword_other (p q : Param.t) (v : pyval) (a : arguments) :
  q <> p -> keyword p v a q = a q.
Proof.
  intros Hq. unfold keyword, Param.eqb.
  destruct (Nat.eqb (Param.index q) (Param.index p)) eqn:E; [|reflexivity].
  apply Nat.eqb_eq, Param_index_inj in E. contradiction.
Qed.

Lemma keyword_same (p : Param.t) (v : pyval) (a : arguments) :
  keyword p v a p = v.
Proof.
  unfold keyword, Param.eqb. now rewrite Nat.eqb_refl.
Qed.

(** The entry of a slot depends on the value of its own parameter only. *)
Lemma get_sample_space_entry_ext (a b : arguments) (q : Param.t) :
  a q = b q ->
  nth_error (get_sample_space a) (Param.index q)
  = nth_error (get_sample_space b) (Param.index q).
Proof.
  intros E. destruct q; cbn [get_sample_space nth_error Param.index];
    now rewrite E.
Qed.

(** X13.  Passing a keyword changes the slot of that parameter only: every
    other entry of the list is as without the keyword, and when the
    parameter is learnable and the value truthy its own slot holds the
    value. *)
Theorem get_sample_space_keyword (a : arguments) (p : Param.t) (v : pyval) :
  (forall i, i <> Param.index p ->
             nth_error (get_sample_space (keyword p v a)) i
             = nth_error (get_sample_space a) i) /\
  (Param.learnable p = true -> truthy v = true ->
   nth_error (get_sample_space (keyword p v a)) (Param.index p)
   = Some (Val v)) /\
  (Param.learnable p = false ->
   nth_error (get_sample_space (keyword p v a)) (Param.index p)
   = Some (Val v)).
Proof.
  repeat apply conj.
  - intros i Hi.
    destruct (Nat.lt_ge_cases i 22) as [Hlt | Hge].
    + assert (Hq : exists q, Param.index q = i).
      { do 22 (destruct i as [|i];
               [ match goal with
                 | |- exists q, Param.index q = ?n =>
                     let e := eval cbv in (nth_error Param.all n) in
                     match e with
                     | Some ?q => exists q; reflexivity
                     end
                 end |]).
        lia. }
      destruct Hq as [q <-].
      apply get_sample_space_entry_ext, keyword_other. congruence.
    + transitivity (@None entry); [|symmetry]; apply nth_error_None;
        cbn [get_sample_space List.length]; exact Hge.
  - intros Hp Hv.
    destruct (get_sample_space_learnable (keyword p v a) p Hp)
      as (e & _ & Ha & _).
    now rewrite Ha, keyword_same, Hv.
  - intros Hp. rewrite get_sample_space_fixed by exact Hp.
    now rewrite keyword_same.
Qed.

(** ** [get_sample_space]: labels and pinned slots *)

(** The learnable part of a space as pairs of a value and its default. *)
Ltac pairs_of l :=
  lazymatch l with
  | py_or ?x ?e :: ?l' =>
      let r := pairs_of l' in constr:((x, e) :: r)
  | nil => constr:(@nil (pyval * hp.expr))
  end.

Lemma get_sample_space_pairs (a : arguments) :
  exists l : list (pyval * hp.expr),
    learnable_slots (get_sample_space a)
    = map (fun xe => py_or (fst xe) (snd xe)) l /\
    Forall2 (fun xe p => fst xe = a p /\ hp.label (snd xe) = Param.name p)
            l learnable_params.
Proof.
  unfold learnable_slots, get_sample_space. cbn [skipn].
  match goal with
  | |- exists l, ?s = _ /\ _ => let r := pairs_of s in exists r
  end.
  split; [reflexivity|].
  unfold learnable_params. cbn [Param.all filter Param.learnable].
  repeat (apply Forall2_cons; [split; reflexivity|]).
  apply Forall2_nil.
Qed.

Lemma labels_or (l : list (pyval * hp.expr)) :
  labels (map (fun xe => py_or (fst xe) (snd xe)) l)
  = map (fun xe => hp.label (snd xe))
        (filter (fun xe => negb (truthy (fst xe))) l).
Proof.
  induction l as [|[x e] l IH]; [reflexivity|].
  cbn [map filter fst snd labels]. unfold py_or at 1.
  destruct (truthy x); cbn [negb entry_label map]; now rewrite IH.
Qed.

Lemma scalars_or (l : list (pyval * hp.expr)) :
  List.length (filter is_scalar (map (fun xe => py_or (fst xe) (snd xe)) l))
  = List.length (filter (fun xe => truthy (fst xe)) l).
Proof.
  induction l as [|[x e] l IH]; [reflexivity|].
  cbn [map filter fst snd]. unfold py_or at 1.
  destruct (truthy x) eqn:Ht; cbn [is_scalar].
  - destruct x; [discriminate Ht|]. cbn [List.length]. now rewrite IH.
  - exact IH.
Qed.

Lemma filter_lockstep {A B C : Type} (R : A -> B -> Prop)
      (f : A -> bool) (g : B -> bool) (h : A -> C) (k : B -> C)
      (l : list A) (m : list B) :
  (forall x y, R x y -> f x = g y /\ h x = k y) ->
  Forall2 R l m ->
  map h (filter f l) = map k (filter g m).
Proof.
  intros HR H. induction H as [|x y l m Hxy _ IH]; [reflexivity|].
  destruct (HR x y Hxy) as [Hf Hh]. cbn [filter]. rewrite <- Hf.
  destruct (f x); cbn [map]; now rewrite ?Hh, IH.
Qed.

Lemma NoDup_map_filter {A B : Type} (h : A -> B) (f : A -> bool)
      (l : list A) :
  NoDup (map h l) -> NoDup (map h (filter f l)).
Proof.
  induction l as [|x l IH]; cbn [map filter]; [trivial|].
  intros H. apply NoDup_cons_iff in H as [Hx Hl].
  destruct (f x); cbn [map]; [|auto].
  apply NoDup_cons; [|auto].
  intros Hin. apply Hx. apply in_map_iff in Hin as (y & Ey & Hy).
  apply in_map_iff. exists y. split; [exact Ey|].
  now apply filter_In in Hy as [Hy _].
Qed.

Lemma learnable_names_NoDup : NoDup (map Param.name learnable_params).
Proof.
  apply (NoDup_map_filter Param.name Param.learnable Param.all).
  cbn [map Param.all Param.name].
  repeat (apply NoDup_cons;
          [ cbn [In]; intros H;
            repeat (destruct H as [H | H]; [discriminate H|]); exact H |]).
  apply NoDup_nil.
Qed.

Lemma labels_Val (v : pyval) (space : list entry) :
  labels (Val v :: space) = labels space.
Proof. reflexivity. Qed.

Lemma labels_unfixed (a : arguments) :
  labels (get_sample_space a)
  = map Param.name
        (filter (fun p => negb (truthy (a p))) learnable_params).
Proof.
  destruct (get_sample_space_pairs a) as (l & El & Hl).
  assert (E : labels (get_sample_space a)
              = labels (learnable_slots (get_sample_space a))).
  { unfold learnable_slots, get_sample_space. now rewrite !labels_Val. }
  rewrite E, El, labels_or.
  apply filter_lockstep
    with (R := fun xe p =>
                 fst xe = a p /\ hp.label (snd xe) = Param.name p);
    [|exact Hl].
  intros [x e] p [Hx He]. cbn [fst snd] in *. now rewrite Hx.
Qed.

(** X14.  The labels of the expressions of a space are the names of the
    learnable parameters that were not given a truthy value, in the order
    of the signature; no label occurs twice. *)
Theorem get_sample_space_labels (a : arguments) :
  labels (get_sample_space a)
  = map Param.name
        (filter (fun p => negb (truthy (a p))) learnable_params) /\
  NoDup (labels (get_sample_space a)).
Proof.
  split; [apply labels_unfixed|].
  rewrite labels_unfixed. apply NoDup_map_filter, learnable_names_NoDup.
Qed.

(** X15.  The number of pinned slots of a space is the number of learnable
    parameters given a truthy value, and the pinned slots and the labelled
    expressions together are the 20 learnable slots. *)
Theorem get_sample_space_pinned (a : arguments) :
  pinned (get_sample_space a) = List.length (fixed_params a) /\
  (pinned (get_sample_space a)
   + List.length (labels (get_sample_space a)) = 20)%nat.
Proof.
  assert (E : pinned (get_sample_space a) = List.length (fixed_params a)).
  { destruct (get_sample_space_pairs a) as (l & El & Hl).
    unfold pinned, fixed_params. rewrite El, scalars_or.
    rewrite <- (length_map (fun xe : pyval * hp.expr => tt)).
    rewrite <- (length_map (fun p : Param.t => tt)).
    f_equal.
    apply filter_lockstep
      with (R := fun xe p =>
                   fst xe = a p /\ hp.label (snd xe) = Param.name p);
      [|exact Hl].
    intros [x e] p [Hx He]. cbn [fst snd] in *. now rewrite Hx. }
  split; [exact E|].
  rewrite E, labels_unfixed.
  unfold fixed_params. rewrite length_map.
  change 20%nat with (List.length learnable_params).
  generalize learnable_params as l. intros l.
  induction l as [|p l IH]; [reflexivity|].
  cbn [filter]. destruct (truthy (a p)); cbn [negb List.length]; lia.
Qed.
